(** * DevopsAssignment: the info handler and the metrics exporter of [main.py]

    A shallow embedding of the two Flask views of [src/main.py] and of
    the module-level initialisation they close over, followed by the
    properties the specification states about them.  The views call into
    Flask ([jsonify]) and into the Prometheus client ([Counter], [inc],
    [generate_latest]); that code is not part of the program's source, and
    each definition that stands for it says so. *)

From Stdlib Require Import ZArith List Ascii String DecimalString DecimalPos Lia.
From stdpp Require Import base gmap strings list fin_maps.

Local Open Scope string_scope.
Local Open Scope Z_scope.

(** ** The process state

    [main.py] keeps everything in module globals: the two configuration
    strings read once when the module is imported, the counter object, and
    the process environment [os.environ] that [os.getenv] consults.  The
    records written by [flask_app.logger.info] are kept, newest last.
    [created] is the creation time the client library stamps on a new
    counter, in whole seconds. *)

Record State := mkState {
  APP_VERSION : string;
  APP_TITLE : string;
  REQUEST_COUNT : Z;
  created : Z;
  environ : gmap string string;
  logged : list string
}.

(** [os.getenv(key, default)] *)
Definition os_getenv (env : gmap string string) (key default : string) : string :=
  match env !! key with
  | Some v => v
  | None => default
  end.

(** Lines 9 to 12 of [main.py], run once when the module is imported:
    the two configuration reads and the creation of the counter, which
    starts at zero.  [now] is the time of the creation. *)
Definition startup (env : gmap string string) (now : Z) : State :=
  {| APP_VERSION := os_getenv env "APP_VERSION" "1.0";
     APP_TITLE := os_getenv env "APP_TITLE" "Devops for Cloud Assignment";
     REQUEST_COUNT := 0;
     created := now;
     environ := env;
     logged := [] |}.

(** A later change of the process environment ([os.environ[key] = value]);
    the module globals are not touched by it. *)
Definition setenv (key value : string) (st : State) : State :=
  {| APP_VERSION := APP_VERSION st;
     APP_TITLE := APP_TITLE st;
     REQUEST_COUNT := REQUEST_COUNT st;
     created := created st;
     environ := <[key := value]> (environ st);
     logged := logged st |}.

(** ** Responses *)

Inductive Body :=
  | JsonBody (obj : gmap string string)
  | TextBody (text : string).

Record Response := mkResponse {
  status : nat;
  content_type : string;
  body : Body
}.

(** ** Views as state-passing computations that may raise

    A Python statement sequence threads the globals and stops at the first
    exception; what was written before the exception stays written. *)

Inductive Result (A : Type) :=
  | Returned (a : A)
  | Raised (exc : string).
Arguments Returned {A} a.
Arguments Raised {A} exc.

Definition View (A : Type) : Type := State -> State * Result A.

#[global] Instance View_ret : MRet View :=
  fun A (a : A) st => (st, Returned a).

#[global] Instance View_bind : MBind View :=
  fun A B (k : A -> View B) (m : View A) st =>
    match m st with
    | (st', Returned a) => k a st'
    | (st', Raised e) => (st', Raised e)
    end.

(** Modelled from the spec: [Counter.inc] of the client library, called
    as [REQUEST_COUNT.inc()] on line 16, is not under src/.  It adds one
    to the counter ("increments RequestCounter by 1").  The library holds
    the value as a double, which is a whole number here and exact below
    2^53; the model holds it as an integer. *)
Definition Counter_inc : View unit :=
  fun st =>
    ({| APP_VERSION := APP_VERSION st;
        APP_TITLE := APP_TITLE st;
        REQUEST_COUNT := REQUEST_COUNT st + 1;
        created := created st;
        environ := environ st;
        logged := logged st |}, Returned tt).

(** [os.getenv] inside a view reads the current environment. *)
Definition getenv (key default : string) : View string :=
  fun st => (st, Returned (os_getenv (environ st) key default)).

(** [flask_app.logger.info(msg)] *)
Definition logger_info (msg : string) : View unit :=
  fun st =>
    ({| APP_VERSION := APP_VERSION st;
        APP_TITLE := APP_TITLE st;
        REQUEST_COUNT := REQUEST_COUNT st;
        created := created st;
        environ := environ st;
        logged := logged st ++ [msg] |}, Returned tt).

(** Reading a module global. *)
Definition global {A} (field : State -> A) : View A :=
  fun st => (st, Returned (field st)).

(** The step that turns the dictionary into a response.  It may look at
    the state and may raise, but it writes nothing. *)
Definition Jsonify : Type := gmap string string -> State -> Result Response.

Definition run_jsonify (jsonify : Jsonify) (obj : gmap string string) : View Response :=
  fun st => (st, jsonify obj st).

(** [get_info], lines 15 to 22, over an arbitrary response builder. *)
Definition get_info_with (jsonify : Jsonify) : View Response :=
  Counter_inc ;;
  pod_name ← getenv "HOSTNAME" "unknown-pod" ;
  logger_info ("Request served by pod: " ++ pod_name) ;;
  version ← global APP_VERSION ;
  title ← global APP_TITLE ;
  run_jsonify jsonify (<["APP_TITLE" := title]> (<["APP_VERSION" := version]> ∅)).

(** Modelled from the spec: Flask's [jsonify] is not under src/.  For a
    dictionary of strings it answers with status 200 and the dictionary
    as the JSON object of the body ("a JSON object with exactly two keys
    ... HTTP status 200"). *)
Definition jsonify : Jsonify :=
  fun obj _ =>
    Returned {| status := 200; content_type := "application/json"; body := JsonBody obj |}.

Definition get_info : View Response := get_info_with jsonify.

(** ** The Prometheus client: counter, registry and text exposition

    Modelled from the spec: the client library ([Counter],
    [generate_latest], [CONTENT_TYPE_LATEST]) is not under src/.  Its
    export is "a text payload listing each registered metric with its
    name, optional help text, type ([counter]), and current numeric
    value, followed by a trailing newline per metric line".  The layout
    of the lines is that of the library's text format 0.0.4: a family is
    announced by a [# HELP] and a [# TYPE] line and followed by one line
    per sample. *)

Definition newline : ascii := "010"%char.
Definition nl : string := String newline "".

Record Sample := mkSample {
  sample_name : string;
  sample_value : Z
}.

Record Metric := mkMetric {
  metric_name : string;
  documentation : string;
  typ : string;
  samples : list Sample
}.

Fixpoint ends_with (suffix s : string) : bool :=
  if String.eqb s suffix then true
  else match s with
       | "" => false
       | String _ s' => ends_with suffix s'
       end.

Definition drop_last (k : nat) (s : string) : string :=
  substring 0 (String.length s - k) s.

(** Modelled from the spec: the naming rule of the library's [Counter].
    A counter created under a name ending in [_total] is the family
    without that suffix; the suffix comes back in the sample name. *)
Definition counter_family (name : string) : string :=
  if ends_with "_total" name then drop_last 6 name else name.

(** The counter of line 12. *)
Definition REQUEST_COUNT_name : string := "requests_total".
Definition REQUEST_COUNT_documentation : string :=
  "Total number of requests to /get_info".

(** Modelled from the spec: [Counter.collect()] of the library, the
    family with its value sample and the sample of its creation time. *)
Definition Counter_collect (name doc : string) (value stamp : Z) : Metric :=
  let family := counter_family name in
  {| metric_name := family;
     documentation := doc;
     typ := "counter";
     samples := [ {| sample_name := family ++ "_total"; sample_value := value |};
                  {| sample_name := family ++ "_created"; sample_value := stamp |} ] |}.

(** Python's [repr] of a double that holds a whole number (below 10^16). *)
Definition digits_of (n : Z) : string := NilZero.string_of_int (Z.to_int n).
Definition repr_float (n : Z) : string := digits_of n ++ ".0".

Fixpoint lstrip_zero_dot (s : string) : string :=
  match s with
  | "" => ""
  | String c s' =>
      if (Ascii.eqb c "0" || Ascii.eqb c ".")%bool then lstrip_zero_dot s' else s
  end.

(** [str.rstrip('0.')] *)
Definition rstrip_zero_dot (s : string) : string :=
  String.rev (lstrip_zero_dot (String.rev s)).

(** Modelled from the spec: the library's [floatToGoString], which
    writes the "current numeric value" of a sample.  Go switches to an
    exponent sooner than Python, from seven digits on. *)
Definition floatToGoString (n : Z) : string :=
  let s := digits_of n in
  let dot := String.length s in
  match s with
  | String d rest =>
      if ((0 <? n) && (6 <? dot)%nat)%bool
      then rstrip_zero_dot (String d ("." ++ rest ++ "0"))
             ++ "e+0" ++ NilZero.string_of_uint (Nat.to_uint (dot - 1))
      else repr_float n
  | "" => repr_float n
  end.

(** The help text is written with backslash and line feed escaped. *)
Fixpoint escape_help (s : string) : string :=
  match s with
  | "" => ""
  | String c s' =>
      if Ascii.eqb c "\" then String "\" (String "\" (escape_help s'))
      else if Ascii.eqb c newline then String "\" (String "n" (escape_help s'))
      else String c (escape_help s')
  end.

Definition sample_line (s : Sample) : string :=
  sample_name s ++ " " ++ floatToGoString (sample_value s) ++ nl.

Definition help_line (name doc : string) : string :=
  "# HELP " ++ name ++ " " ++ escape_help doc ++ nl.

Definition type_line (name kind : string) : string :=
  "# TYPE " ++ name ++ " " ++ kind ++ nl.

(** How the text format names a family and its type. *)
Definition munge (name kind : string) : string * string :=
  if String.eqb kind "counter" then (name ++ "_total", kind)
  else if String.eqb kind "info" then (name ++ "_info", "gauge")
  else if String.eqb kind "stateset" then (name, "gauge")
  else if String.eqb kind "gaugehistogram" then (name, "histogram")
  else if String.eqb kind "unknown" then (name, "untyped")
  else (name, kind).

Definition om_suffixes : list string := ["_created"; "_gcount"; "_gsum"].

Definition is_om_sample (m : Metric) (s : Sample) : bool :=
  existsb (fun suffix => String.eqb (sample_name s) (metric_name m ++ suffix)) om_suffixes.

(** The samples with an OpenMetrics suffix leave the family and are
    written after it as a gauge of their own. *)
Definition om_output (m : Metric) (suffix : string) : list string :=
  match List.filter (fun s => String.eqb (sample_name s) (metric_name m ++ suffix)) (samples m) with
  | [] => []
  | found =>
      help_line (metric_name m ++ suffix) (documentation m)
        :: type_line (metric_name m ++ suffix) "gauge"
        :: map sample_line found
  end.

Definition metric_output (m : Metric) : list string :=
  let '(mname, mtype) := munge (metric_name m) (typ m) in
  help_line mname (documentation m)
    :: type_line mname mtype
    :: map sample_line (List.filter (fun s => negb (is_om_sample m s)) (samples m))
    ++ flat_map (om_output m) om_suffixes.

(** Modelled from the spec: [generate_latest(registry)] of the library,
    the lines of every collected family, joined. *)
Definition generate_latest (registry : list Metric) : string :=
  String.concat "" (flat_map metric_output registry).

(** Modelled from the spec: the library's constant for "the standard
    metrics exposition media type". *)
Definition CONTENT_TYPE_LATEST : string := "text/plain; version=0.0.4; charset=utf-8".

(** What the default registry collects for the counter of line 12. *)
Definition REGISTRY_collect (st : State) : list Metric :=
  [ Counter_collect REQUEST_COUNT_name REQUEST_COUNT_documentation
      (REQUEST_COUNT st) (created st) ].

(** [metrics], lines 25 and 26.  The collectors the client library
    registers by itself (process, platform, garbage collector) come before
    the counter in the default registry; [others] is the text
    [generate_latest] writes for them at this scrape. *)
Definition metrics (others : string) : View Response :=
  fun st =>
    (st, Returned {| status := 200;
                     content_type := CONTENT_TYPE_LATEST;
                     body := TextBody (others ++ generate_latest (REGISTRY_collect st)) |}).

(** ** Requests and runs

    The host dispatches a request to one of the two views.  Between
    requests the process environment may change. *)

Inductive Request :=
  | GetInfo
  | Export (others : string).

Definition dispatch (r : Request) : View Response :=
  match r with
  | GetInfo => get_info
  | Export others => metrics others
  end.

Inductive Event :=
  | Call (r : Request)
  | Setenv (key value : string).

Definition step (e : Event) (st : State) : State :=
  match e with
  | Call r => fst (dispatch r st)
  | Setenv key value => setenv key value st
  end.

Definition run (events : list Event) (st : State) : State :=
  fold_left (fun acc e => step e acc) events st.

(** [n] calls of [get_info] in a row. *)
Fixpoint get_info_times (n : nat) (st : State) : State :=
  match n with
  | O => st
  | S k => get_info_times k (fst (get_info st))
  end.

(** The states a process can be in: those a run reaches from start-up. *)
Inductive reachable : State -> Prop :=
  | reachable_startup env now : reachable (startup env now)
  | reachable_step e st : reachable st -> reachable (step e st).

(** Modelled from the spec: the host around a view (Flask and the
    server under it) is not under src/.  "Any unexpected internal failure
    should surface as HTTP 500": an exception in the view, or a failure of
    [send] when the response is written out, ends in status 500. *)
Definition serve (view : View Response) (send : Response -> bool) (st : State)
  : State * nat :=
  match view st with
  | (st', Returned resp) => (st', if send resp then status resp else 500%nat)
  | (st', Raised _) => (st', 500%nat)
  end.

(** ** Reading an exposition

    What a scraper sees in a payload: its lines, and on each line the
    family or sample it names. *)

Fixpoint split_lines (s : string) : list string :=
  match s with
  | "" => []
  | String c s' =>
      if Ascii.eqb c newline then "" :: split_lines s'
      else match split_lines s' with
           | [] => [String c ""]
           | l :: ls => String c l :: ls
           end
  end.

Fixpoint strip_prefix (p s : string) : option string :=
  match p, s with
  | "", _ => Some s
  | String a p', String b s' => if Ascii.eqb a b then strip_prefix p' s' else None
  | String _ _, "" => None
  end.

(** The text before the first space or brace, and the text after it. *)
Fixpoint break_name (s : string) : string * string :=
  match s with
  | "" => ("", "")
  | String c s' =>
      if (Ascii.eqb c " " || Ascii.eqb c "{")%bool then ("", s')
      else let '(name, rest) := break_name s' in (String c name, rest)
  end.

Inductive Line :=
  | HelpLine (name doc : string)
  | TypeLine (name kind : string)
  | SampleLine (name value : string)
  | OtherLine.

Definition parse_line (l : string) : Line :=
  match strip_prefix "# HELP " l with
  | Some r => let '(name, doc) := break_name r in HelpLine name doc
  | None =>
      match strip_prefix "# TYPE " l with
      | Some r => let '(name, kind) := break_name r in TypeLine name kind
      | None =>
          match l with
          | "" => OtherLine
          | String c _ =>
              if Ascii.eqb c "#" then OtherLine
              else let '(name, value) := break_name l in SampleLine name value
          end
      end
  end.

Definition exposition (text : string) : list Line := map parse_line (split_lines text).

Definition sample_of (name : string) (l : Line) : option string :=
  match l with
  | SampleLine n v => if String.eqb n name then Some v else None
  | _ => None
  end.

Definition type_of (name : string) (l : Line) : option string :=
  match l with
  | TypeLine n k => if String.eqb n name then Some k else None
  | _ => None
  end.

Definition help_of (name : string) (l : Line) : option string :=
  match l with
  | HelpLine n d => if String.eqb n name then Some d else None
  | _ => None
  end.

(** The values, the types and the help texts a payload gives for [name],
    in the order of its lines. *)
Definition reported (name text : string) : list string :=
  omap (sample_of name) (exposition text).
Definition declared (name text : string) : list string :=
  omap (type_of name) (exposition text).
Definition described (name text : string) : list string :=
  omap (help_of name) (exposition text).

Definition names (name : string) (l : Line) : bool :=
  match l with
  | HelpLine n _ | TypeLine n _ | SampleLine n _ => String.eqb n name
  | OtherLine => false
  end.

(** A text made of whole lines: empty, or ending in a line feed. *)
Fixpoint whole_lines (s : string) : bool :=
  match s with
  | "" => true
  | String c "" => Ascii.eqb c newline
  | String _ s' => whole_lines s'
  end.

(** The text of the other collectors is made of whole lines, none of
    which names [name]: the registry refuses a second collector for a
    name it already holds. *)
Definition leaves_alone (name others : string) : bool :=
  (whole_lines others && forallb (fun l => negb (names name l)) (exposition others))%bool.

(** The number a sample value stands for, when it is written without an
    exponent: [3] and [3.0] both stand for three. *)
Fixpoint all_zero (s : string) : bool :=
  match s with
  | "" => true
  | String c s' => (Ascii.eqb c "0" && all_zero s')%bool
  end.

Fixpoint read_digits (acc : Z) (s : string) : option Z :=
  match s with
  | "" => Some acc
  | String c s' =>
      if Ascii.eqb c "." then (if all_zero s' then Some acc else None)
      else match Ascii.is_nat c with
           | Some d => read_digits (10 * acc + Z.of_nat d) s'
           | None => None
           end
  end.

Definition read_value (s : string) : option Z :=
  match s with
  | "" => None
  | String c _ => if Ascii.eqb c "." then None else read_digits 0 s
  end.

(** The text of a response, for the views that answer in text. *)
Definition text_of (r : Result Response) : string :=
  match r with
  | Returned {| body := TextBody t |} => t
  | _ => ""
  end.

(** A text without a line feed. *)
Fixpoint nofeed (s : string) : bool :=
  match s with
  | "" => true
  | String c s' => (negb (Ascii.eqb c newline) && nofeed s')%bool
  end.

(** [n] exports in a row, each with its own text for the other collectors. *)
Definition exports (scrapes : list string) : list Event :=
  map (fun others => Call (Export others)) scrapes.

(** A line of a payload that gives [name] the value [n]. *)
Definition line_gives (name : string) (n : Z) (line : string) : bool :=
  match parse_line line with
  | SampleLine nm v =>
      (String.eqb nm name && bool_decide (read_value v = Some n))%bool
  | _ => false
  end.

(** The count a scraper reads off a payload: the value of the one
    [requests_total] sample, when there is exactly one and it is written
    without an exponent. *)
Definition observed_count (text : string) : option Z :=
  match reported "requests_total" text with
  | [v] => read_value v
  | _ => None
  end.

(** The last record the logger wrote. *)
Definition last_logged (st : State) : option string := last (logged st).

(** ** Routing

    Lines 14 and 24 register one rule each on [flask_app], in this order:
    the path [/get_info] for [get_info] and the path [/metrics] for
    [metrics]. *)






(** ** Counting in a run *)

(** The number of [get_info] calls among the events of a run. *)
Fixpoint calls (events : list Event) : nat :=
  match events with
  | [] => O
  | Call GetInfo :: rest => S (calls rest)
  | _ :: rest => calls rest
  end.

Definition is_setenv (e : Event) : bool :=
  match e with
  | Setenv _ _ => true
  | Call _ => false
  end.

(** The record [get_info] logs when [HOSTNAME] is as in [env]. *)
Definition pod_record (env : gmap string string) : string :=
  "Request served by pod: " ++ os_getenv env "HOSTNAME" "unknown-pod".

(** * Properties *)

(** ** Texts and lines *)

Section Lines.

Lemma append_assoc (a b c : string) : (a ++ b) ++ c = a ++ (b ++ c).
Proof.
  induction a as [|x a IH]; [done|].
  change (String x ((a ++ b) ++ c) = String x (a ++ b ++ c)). by rewrite IH.
Qed.

Lemma nofeed_app a b : nofeed (a ++ b) = (nofeed a && nofeed b)%bool.
Proof.
  induction a as [|c a IH]; simpl; [done|].
  rewrite IH. by destruct (Ascii.eqb c newline).
Qed.

Lemma nofeed_rev_app a b : nofeed (String.rev_app a b) = (nofeed a && nofeed b)%bool.
Proof.
  revert b. induction a as [|c a IH]; intros b; simpl; [done|].
  rewrite IH. simpl. destruct (Ascii.eqb c newline), (nofeed a); simpl; auto.
Qed.

Lemma nofeed_rev a : nofeed (String.rev a) = nofeed a.
Proof. unfold String.rev. rewrite nofeed_rev_app. simpl. apply andb_true_r. Qed.

Lemma nofeed_lstrip s : nofeed s = true -> nofeed (lstrip_zero_dot s) = true.
Proof.
  induction s as [|c s IH]; simpl; [done|].
  intros H. destruct (Ascii.eqb c "0" || Ascii.eqb c ".")%bool; simpl; [|done].
  apply IH. apply andb_true_iff in H. tauto.
Qed.

Lemma nofeed_rstrip s : nofeed s = true -> nofeed (rstrip_zero_dot s) = true.
Proof.
  intros H. unfold rstrip_zero_dot. rewrite nofeed_rev.
  apply nofeed_lstrip. by rewrite nofeed_rev.
Qed.

Lemma nofeed_uint u : nofeed (NilEmpty.string_of_uint u) = true.
Proof. induction u; simpl; auto. Qed.

Lemma nofeed_uint0 u : nofeed (NilZero.string_of_uint u) = true.
Proof. destruct u; simpl; auto using nofeed_uint. Qed.

Lemma nofeed_digits n : nofeed (digits_of n) = true.
Proof.
  unfold digits_of, NilZero.string_of_int.
  destruct (Z.to_int n); simpl; auto using nofeed_uint0.
Qed.

Lemma nofeed_repr n : nofeed (repr_float n) = true.
Proof. unfold repr_float. by rewrite nofeed_app, nofeed_digits. Qed.

Lemma nofeed_floatToGoString n : nofeed (floatToGoString n) = true.
Proof.
  unfold floatToGoString.
  pose proof (nofeed_digits n) as Hd.
  destruct (digits_of n) as [|d rest] eqn:E; [apply nofeed_repr|].
  destruct ((0 <? n) && (6 <? String.length (String d rest))%nat)%bool;
    [|apply nofeed_repr].
  rewrite !nofeed_app, nofeed_uint0.
  rewrite nofeed_rstrip; [done|].
  simpl in Hd. apply andb_true_iff in Hd as [Hc Hr].
  change (String d ("." ++ rest ++ "0")) with (String d "." ++ rest ++ "0").
  rewrite !nofeed_app, Hr. simpl. by rewrite Hc.
Qed.

Lemma split_lines_nil s : split_lines s = [] -> s = "".
Proof.
  destruct s as [|c s]; simpl; [done|].
  destruct (Ascii.eqb c newline); [done|]. by destruct (split_lines s).
Qed.

Lemma split_lines_nofeed l rest :
  nofeed l = true -> split_lines (l ++ nl ++ rest) = l :: split_lines rest.
Proof.
  induction l as [|c l IH]; simpl; [done|].
  intros H. apply andb_true_iff in H as [Hc Hl].
  destruct (Ascii.eqb c newline); [done|].
  simpl in IH. by rewrite (IH Hl).
Qed.

Lemma split_lines_cons c s :
  split_lines (String c s) =
    if Ascii.eqb c newline then "" :: split_lines s
    else match split_lines s with
         | [] => [String c ""]
         | l :: ls => String c l :: ls
         end.
Proof. reflexivity. Qed.

Lemma split_lines_app a b :
  whole_lines a = true -> split_lines (a ++ b) = (split_lines a ++ split_lines b)%list.
Proof.
  induction a as [|c a IH]; [done|].
  destruct a as [|c' a].
  - simpl. intros ->. done.
  - intros H. change (whole_lines (String c' a) = true) in H.
    specialize (IH H).
    change (String c (String c' a) ++ b) with (String c (String c' a ++ b)).
    rewrite (split_lines_cons c (String c' a ++ b)), IH.
    rewrite (split_lines_cons c (String c' a)).
    destruct (Ascii.eqb c newline); [done|].
    destruct (split_lines (String c' a)) eqn:E; [|done].
    by apply split_lines_nil in E.
Qed.

(** A line that follows a line feed is a line of the text, whatever
    precedes that line feed. *)
Lemma split_lines_after a rest l :
  In l (split_lines rest) -> In l (tail (split_lines (a ++ nl ++ rest))).
Proof.
  intros Hl. induction a as [|c a IH]; [exact Hl|].
  change (String c a ++ nl ++ rest) with (String c (a ++ nl ++ rest)).
  rewrite split_lines_cons.
  destruct (Ascii.eqb c newline); simpl.
  - destruct (split_lines (a ++ nl ++ rest)); [done|]. by right.
  - by destruct (split_lines (a ++ nl ++ rest)).
Qed.

Lemma split_lines_later a rest l :
  In l (split_lines rest) -> In l (split_lines (a ++ nl ++ rest)).
Proof.
  intros Hl. apply (split_lines_after a) in Hl.
  destruct (split_lines (a ++ nl ++ rest)); [done|]. by right.
Qed.

End Lines.

(** ** What the exporter writes for the counter *)

Section Exporter.

Lemma counter_output st :
  flat_map metric_output (REGISTRY_collect st) =
    [ help_line "requests_total" REQUEST_COUNT_documentation;
      type_line "requests_total" "counter";
      sample_line (mkSample "requests_total" (REQUEST_COUNT st));
      help_line "requests_created" REQUEST_COUNT_documentation;
      type_line "requests_created" "gauge";
      sample_line (mkSample "requests_created" (created st)) ].
Proof. reflexivity. Qed.

Lemma generate_latest_counter st :
  generate_latest (REGISTRY_collect st) =
    "# HELP requests_total Total number of requests to /get_info" ++ nl ++
    "# TYPE requests_total counter" ++ nl ++
    ("requests_total " ++ floatToGoString (REQUEST_COUNT st)) ++ nl ++
    "# HELP requests_created Total number of requests to /get_info" ++ nl ++
    "# TYPE requests_created gauge" ++ nl ++
    ("requests_created " ++ floatToGoString (created st)) ++ nl ++ "".
Proof.
  unfold generate_latest. rewrite counter_output.
  unfold sample_line, sample_name, sample_value. cbn [String.concat].
  rewrite !append_assoc. reflexivity.
Qed.

Lemma exposition_counter st :
  exposition (generate_latest (REGISTRY_collect st)) =
    [ HelpLine "requests_total" "Total number of requests to /get_info";
      TypeLine "requests_total" "counter";
      SampleLine "requests_total" (floatToGoString (REQUEST_COUNT st));
      HelpLine "requests_created" "Total number of requests to /get_info";
      TypeLine "requests_created" "gauge";
      SampleLine "requests_created" (floatToGoString (created st)) ].
Proof.
  unfold exposition. rewrite generate_latest_counter.
  rewrite !split_lines_nofeed;
    try (rewrite nofeed_app, nofeed_floatToGoString; reflexivity);
    try reflexivity.
Qed.

Lemma exposition_payload others st :
  whole_lines others = true ->
  exposition (others ++ generate_latest (REGISTRY_collect st)) =
    (exposition others ++ exposition (generate_latest (REGISTRY_collect st)))%list.
Proof.
  intros H. unfold exposition. by rewrite split_lines_app, map_app.
Qed.

Lemma sample_of_names name l : names name l = false -> sample_of name l = None.
Proof. destruct l; simpl; try done; by intros ->. Qed.

Lemma type_of_names name l : names name l = false -> type_of name l = None.
Proof. destruct l; simpl; try done; by intros ->. Qed.

Lemma help_of_names name l : names name l = false -> help_of name l = None.
Proof. destruct l; simpl; try done; by intros ->. Qed.

Lemma omap_silent (f : Line -> option string) name (ls : list Line) :
  (forall l, names name l = false -> f l = None) ->
  forallb (fun l => negb (names name l)) ls = true ->
  omap f ls = [].
Proof.
  intros Hf. induction ls as [|l ls IH]; simpl; [done|].
  intros H. apply andb_true_iff in H as [Hl Hls].
  apply negb_true_iff in Hl. rewrite (Hf l Hl). auto.
Qed.

Lemma payload_reported others st :
  leaves_alone "requests_total" others = true ->
  reported "requests_total" (others ++ generate_latest (REGISTRY_collect st)) =
    [floatToGoString (REQUEST_COUNT st)].
Proof.
  intros H. apply andb_true_iff in H as [Hw Hs].
  unfold reported. rewrite exposition_payload, omap_app by done.
  rewrite (omap_silent _ "requests_total") by auto using sample_of_names.
  by rewrite exposition_counter.
Qed.

Lemma payload_declared others st :
  leaves_alone "requests_total" others = true ->
  declared "requests_total" (others ++ generate_latest (REGISTRY_collect st)) =
    ["counter"].
Proof.
  intros H. apply andb_true_iff in H as [Hw Hs].
  unfold declared. rewrite exposition_payload, omap_app by done.
  rewrite (omap_silent _ "requests_total") by auto using type_of_names.
  by rewrite exposition_counter.
Qed.

Lemma payload_described others st :
  leaves_alone "requests_total" others = true ->
  described "requests_total" (others ++ generate_latest (REGISTRY_collect st)) =
    ["Total number of requests to /get_info"].
Proof.
  intros H. apply andb_true_iff in H as [Hw Hs].
  unfold described. rewrite exposition_payload, omap_app by done.
  rewrite (omap_silent _ "requests_total") by auto using help_of_names.
  by rewrite exposition_counter.
Qed.

Lemma payload_has_line others st :
  In ("requests_total " ++ floatToGoString (REQUEST_COUNT st))
     (split_lines (others ++ generate_latest (REGISTRY_collect st))).
Proof.
  set (line := "requests_total " ++ floatToGoString (REQUEST_COUNT st)).
  assert (E : exists before rest,
             others ++ generate_latest (REGISTRY_collect st) =
               before ++ nl ++ (line ++ nl ++ rest)).
  { exists (others ++ "# HELP requests_total Total number of requests to /get_info"
              ++ nl ++ "# TYPE requests_total counter").
    eexists. rewrite generate_latest_counter, !append_assoc. reflexivity. }
  destruct E as (before & rest & ->).
  apply split_lines_later. rewrite split_lines_nofeed; [by left|].
  subst line. by rewrite nofeed_app, nofeed_floatToGoString.
Qed.

End Exporter.

(** ** The info handler *)

Section InfoHandler.

Implicit Types (st : State) (jsonify : Jsonify).

(** One call, spelled out: the state it leaves and the value it hands back. *)
Lemma get_info_with_unfold jsonify st :
  get_info_with jsonify st =
    let st' :=
      {| APP_VERSION := APP_VERSION st;
         APP_TITLE := APP_TITLE st;
         REQUEST_COUNT := REQUEST_COUNT st + 1;
         created := created st;
         environ := environ st;
         logged := (logged st ++
           [("Request served by pod: " ++ os_getenv (environ st) "HOSTNAME" "unknown-pod")%string])%list |} in
    (st', jsonify (<["APP_TITLE" := APP_TITLE st]> (<["APP_VERSION" := APP_VERSION st]> ∅)) st').
Proof. reflexivity. Qed.

Lemma get_info_result st :
  snd (get_info st) =
    Returned {| status := 200;
                content_type := "application/json";
                body := JsonBody (<["APP_TITLE" := APP_TITLE st]>
                                    (<["APP_VERSION" := APP_VERSION st]> ∅)) |}.
Proof. reflexivity. Qed.

Lemma get_info_count st : REQUEST_COUNT (fst (get_info st)) = REQUEST_COUNT st + 1.
Proof. reflexivity. Qed.

Lemma get_info_config st :
  APP_VERSION (fst (get_info st)) = APP_VERSION st /\
  APP_TITLE (fst (get_info st)) = APP_TITLE st.
Proof. split; reflexivity. Qed.

Lemma metrics_state others st : fst (metrics others st) = st.
Proof. reflexivity. Qed.

Lemma step_config e st :
  APP_VERSION (step e st) = APP_VERSION st /\ APP_TITLE (step e st) = APP_TITLE st.
Proof. destruct e as [[|others]|key value]; split; reflexivity. Qed.

Lemma run_config events st :
  APP_VERSION (run events st) = APP_VERSION st /\ APP_TITLE (run events st) = APP_TITLE st.
Proof.
  revert st. induction events as [|e events IH]; intros st; [done|].
  change (run (e :: events) st) with (run events (step e st)).
  destruct (IH (step e st)) as [-> ->]. apply step_config.
Qed.

Lemma step_count e st : REQUEST_COUNT st <= REQUEST_COUNT (step e st).
Proof. destruct e as [[|others]|key value]; simpl; lia. Qed.

Lemma get_info_times_count n st :
  REQUEST_COUNT (get_info_times n st) = REQUEST_COUNT st + Z.of_nat n.
Proof.
  revert st. induction n as [|n IH]; intros st.
  - simpl. lia.
  - change (get_info_times (S n) st) with (get_info_times n (fst (get_info st))).
    rewrite IH, get_info_count. lia.
Qed.

Lemma run_exports scrapes st : run (exports scrapes) st = st.
Proof. induction scrapes as [|o scrapes IH]; [done|]. exact IH. Qed.

(** C1: for every configuration, a call of [get_info] returns status 200
    and a JSON object that maps [APP_VERSION] to the configured version,
    [APP_TITLE] to the configured title, and holds these two keys only. *)
Theorem get_info_returns_config (version title : string) (count stamp : Z)
    (env : gmap string string) (log : list string) :
  exists obj,
    snd (get_info (mkState version title count stamp env log)) =
      Returned {| status := 200; content_type := "application/json"; body := JsonBody obj |} /\
    obj !! "APP_VERSION" = Some version /\
    obj !! "APP_TITLE" = Some title /\
    dom obj = {[ "APP_VERSION"; "APP_TITLE" ]} /\
    size obj = 2%nat.
Proof.
  eexists. split; [apply get_info_result|]. simpl.
  split; [|split; [|split]].
  - by rewrite lookup_insert_ne, lookup_insert_eq.
  - by rewrite lookup_insert_eq.
  - rewrite !dom_insert_L, dom_empty_L. set_solver.
  - rewrite !map_size_insert_None, map_size_empty; [done|done|].
    by rewrite lookup_insert_ne.
Qed.

End InfoHandler.

(** ** Reading a value back *)

Section Values.

Lemma read_digits_acc d acc :
  read_digits (Zpos acc) (NilEmpty.string_of_uint d ++ ".0") =
    Some (Zpos (Pos.of_uint_acc d acc)).
Proof.
  revert acc. induction d; intros acc; [reflexivity|..];
    cbn [NilEmpty.string_of_uint Pos.of_uint_acc];
    match goal with
    | |- read_digits _ (String ?c ?s ++ ?t) = _ =>
        change (String c s ++ t) with (String c (s ++ t))
    end;
    cbn [read_digits Ascii.eqb Ascii.is_nat Bool.eqb andb];
    rewrite <- IHd; f_equal; lia.
Qed.

Lemma read_digits_uint d :
  read_digits 0 (NilEmpty.string_of_uint d ++ ".0") = Some (Z.of_N (Pos.of_uint d)).
Proof.
  induction d; [reflexivity|..];
    cbn [NilEmpty.string_of_uint Pos.of_uint];
    match goal with
    | |- read_digits _ (String ?c ?s ++ ?t) = _ =>
        change (String c s ++ t) with (String c (s ++ t))
    end;
    cbn [read_digits Ascii.eqb Ascii.is_nat Bool.eqb andb];
    solve [ exact IHd | apply read_digits_acc ].
Qed.

Lemma read_value_repr n : 0 <= n -> read_value (repr_float n) = Some n.
Proof.
  intros Hn. destruct n as [|p|p]; [reflexivity| |lia].
  unfold repr_float, digits_of. cbn [Z.to_int NilZero.string_of_int].
  pose proof (DecimalPos.Unsigned.to_uint_nonnil p) as Hnil.
  pose proof (DecimalPos.Unsigned.of_to p) as Hback.
  pose proof (read_digits_uint (Pos.to_uint p)) as Hread.
  rewrite Hback in Hread. cbn [Z.of_N] in Hread.
  destruct (Pos.to_uint p) as [|d|d|d|d|d|d|d|d|d|d]; [done|..]; exact Hread.
Qed.

Lemma floatToGoString_plain n :
  (String.length (digits_of n) <= 6)%nat -> floatToGoString n = repr_float n.
Proof.
  intros Hlen. unfold floatToGoString.
  destruct (digits_of n) as [|d rest]; [done|].
  replace (6 <? String.length (String d rest))%nat with false; [by rewrite andb_false_r|].
  symmetry. apply Nat.ltb_ge. exact Hlen.
Qed.

Lemma read_value_floatToGoString n :
  0 <= n -> (String.length (digits_of n) <= 6)%nat ->
  read_value (floatToGoString n) = Some n.
Proof. intros Hn Hlen. rewrite floatToGoString_plain by done. by apply read_value_repr. Qed.

End Values.

(** ** The counter across requests *)

Section Counter.

Implicit Types (st : State) (others : string).

Lemma observed_payload others st :
  leaves_alone "requests_total" others = true ->
  observed_count (others ++ generate_latest (REGISTRY_collect st)) =
    read_value (floatToGoString (REQUEST_COUNT st)).
Proof. intros H. unfold observed_count. by rewrite payload_reported. Qed.

Lemma run_count events st : REQUEST_COUNT st <= REQUEST_COUNT (run events st).
Proof.
  revert st. induction events as [|e events IH]; intros st; [simpl; lia|].
  change (run (e :: events) st) with (run events (step e st)).
  pose proof (step_count e st). pose proof (IH (step e st)). lia.
Qed.

Lemma reachable_count st : reachable st -> 0 <= REQUEST_COUNT st.
Proof.
  induction 1 as [env now|e st _ IH]; [simpl; lia|].
  pose proof (step_count e st). lia.
Qed.

(** C2: for every number [N] of calls and every starting value [C] of
    the counter, after [N] calls of [get_info] the counter holds [C + N]
    and the export that follows reports [requests_total] once, with the
    value [C + N]. *)
Theorem get_info_times_exported (N : nat) (C : Z) (st : State) (others : string) :
  REQUEST_COUNT st = C ->
  leaves_alone "requests_total" others = true ->
  let st' := get_info_times N st in
  let payload := text_of (snd (metrics others st')) in
  REQUEST_COUNT st' = C + Z.of_nat N /\
  fst (metrics others st') = st' /\
  reported "requests_total" payload = [floatToGoString (C + Z.of_nat N)] /\
  (0 <= C + Z.of_nat N ->
   (String.length (digits_of (C + Z.of_nat N)) <= 6)%nat ->
   observed_count payload = Some (C + Z.of_nat N)).
Proof.
  intros HC Hothers st' payload.
  assert (Hcount : REQUEST_COUNT st' = C + Z.of_nat N).
  { subst st'. rewrite get_info_times_count. lia. }
  split; [exact Hcount|]. split; [reflexivity|].
  subst payload. cbn [metrics snd text_of body].
  split.
  - rewrite payload_reported by done. by rewrite Hcount.
  - intros Hpos Hlen. rewrite observed_payload by done.
    rewrite Hcount. by apply read_value_floatToGoString.
Qed.

Lemma get_info_times_exported_witness :
  observed_count
    (text_of (snd (metrics "process_open_fds 7.0
" (get_info_times 3 (mkState "1.0" "t" 2 0 ∅ []))))) = Some 5.
Proof.
  refine (proj2 (proj2 (proj2
    (get_info_times_exported 3 2 (mkState "1.0" "t" 2 0 ∅ []) "process_open_fds 7.0
" _ _))) _ _).
  - reflexivity.
  - vm_compute; reflexivity.
  - vm_compute; discriminate.
  - vm_compute; lia.
Defined.

(** C3: the counter starts at zero and is never negative; no event
    lowers it; [get_info] raises it by exactly one; an export leaves the
    whole state as it was, so any number of exports in a row report the
    same value. *)
Theorem counter_only_grows (st : State) (events : list Event)
    (scrapes : list string) (first later : string) :
  reachable st ->
  leaves_alone "requests_total" first = true ->
  leaves_alone "requests_total" later = true ->
  (forall env now, REQUEST_COUNT (startup env now) = 0) /\
  0 <= REQUEST_COUNT st /\
  REQUEST_COUNT st <= REQUEST_COUNT (run events st) /\
  REQUEST_COUNT (step (Call GetInfo) st) = REQUEST_COUNT st + 1 /\
  step (Call (Export first)) st = st /\
  run (exports scrapes) st = st /\
  reported "requests_total"
    (text_of (snd (metrics later (run (exports scrapes) st)))) =
  reported "requests_total" (text_of (snd (metrics first st))).
Proof.
  intros Hreach Hfirst Hlater.
  split; [reflexivity|].
  split; [by apply reachable_count|].
  split; [apply run_count|].
  split; [reflexivity|].
  split; [reflexivity|].
  split; [apply run_exports|].
  rewrite run_exports. cbn [metrics snd text_of body].
  by rewrite !payload_reported.
Qed.

Lemma counter_only_grows_witness :
  let st := step (Call GetInfo) (startup ∅ 0) in
  REQUEST_COUNT st <= REQUEST_COUNT (run [Call GetInfo; Setenv "HOSTNAME" "a"; Call (Export "")] st) /\
  reported "requests_total"
    (text_of (snd (metrics "up 1.0
" (run (exports [""; "up 1.0
"]) st)))) =
  reported "requests_total" (text_of (snd (metrics "" st))).
Proof.
  intros st.
  assert (Hreach : reachable st) by (apply reachable_step, reachable_startup).
  pose proof (counter_only_grows st
                [Call GetInfo; Setenv "HOSTNAME" "a"; Call (Export "")]
                [""; "up 1.0
"] "" "up 1.0
" Hreach eq_refl eq_refl) as H.
  split; [apply H|]. apply H.
Defined.

End Counter.

(** ** Configuration and environment *)

Section Configuration.

Implicit Types (st : State) (env : gmap string string).

Lemma last_snoc (l : list string) (x : string) : last (l ++ [x])%list = Some x.
Proof. induction l as [|y [|z l] IH]; [done|done|exact IH]. Qed.

Lemma get_info_logged st :
  last_logged (fst (get_info st)) =
    Some ("Request served by pod: " ++ os_getenv (environ st) "HOSTNAME" "unknown-pod").
Proof. unfold last_logged. cbn [get_info]. apply last_snoc. Qed.

Lemma get_info_run events st : snd (get_info (run events st)) = snd (get_info st).
Proof.
  rewrite !get_info_result. by destruct (run_config events st) as [-> ->].
Qed.

(** C4: with neither [APP_VERSION] nor [APP_TITLE] in the environment
    at start-up, [get_info] answers with the two defaults, at once and
    after any run. *)
Theorem get_info_defaults (env : gmap string string) (now : Z) (events : list Event) :
  env !! "APP_VERSION" = None ->
  env !! "APP_TITLE" = None ->
  snd (get_info (run events (startup env now))) =
    Returned {| status := 200;
                content_type := "application/json";
                body := JsonBody (<["APP_TITLE" := "Devops for Cloud Assignment"]>
                                    (<["APP_VERSION" := "1.0"]> ∅)) |}.
Proof.
  intros Hv Ht. rewrite get_info_result.
  destruct (run_config events (startup env now)) as [-> ->].
  cbn [startup APP_VERSION APP_TITLE]. unfold os_getenv. by rewrite Hv, Ht.
Qed.

Lemma get_info_defaults_witness :
  snd (get_info (run [Call GetInfo; Setenv "APP_TITLE" "late"]
                     (startup {[ "HOSTNAME" := "pod-7" ]} 0))) =
    Returned {| status := 200;
                content_type := "application/json";
                body := JsonBody (<["APP_TITLE" := "Devops for Cloud Assignment"]>
                                    (<["APP_VERSION" := "1.0"]> ∅)) |}.
Proof.
  apply (get_info_defaults {[ "HOSTNAME" := "pod-7" ]} 0
           [Call GetInfo; Setenv "APP_TITLE" "late"]).
  - vm_compute; reflexivity.
  - vm_compute; reflexivity.
Defined.

(** C7: the answer of [get_info] is a function of the two configured
    strings: two states that agree on them get the same answer, whatever
    their counters, their environments (so whatever [HOSTNAME] is logged)
    and their logs. *)
Theorem get_info_answer_from_config (st1 st2 : State) :
  APP_VERSION st1 = APP_VERSION st2 ->
  APP_TITLE st1 = APP_TITLE st2 ->
  snd (get_info st1) = snd (get_info st2).
Proof. intros Hv Ht. rewrite !get_info_result. by rewrite Hv, Ht. Qed.

Lemma get_info_answer_from_config_witness :
  snd (get_info (mkState "2.3.1" "MyApp" 0 0 {[ "HOSTNAME" := "pod-a" ]} [])) =
  snd (get_info (mkState "2.3.1" "MyApp" 41 9 {[ "HOSTNAME" := "pod-b" ]} ["earlier"])).
Proof.
  apply (get_info_answer_from_config
           (mkState "2.3.1" "MyApp" 0 0 {[ "HOSTNAME" := "pod-a" ]} [])
           (mkState "2.3.1" "MyApp" 41 9 {[ "HOSTNAME" := "pod-b" ]} ["earlier"]));
    reflexivity.
Defined.

(** C8: whatever the response builder does, answer or raise, and
    whether or not the host manages to send the answer, one call of
    [get_info] leaves the counter exactly one higher; the builder runs in
    the state that already holds the increment. *)
Theorem get_info_counts_first (jsonify : Jsonify) (send : Response -> bool) (st : State) :
  let st' := fst (get_info_with jsonify st) in
  REQUEST_COUNT st' = REQUEST_COUNT st + 1 /\
  snd (get_info_with jsonify st) =
    jsonify (<["APP_TITLE" := APP_TITLE st]> (<["APP_VERSION" := APP_VERSION st]> ∅)) st' /\
  REQUEST_COUNT (fst (serve (get_info_with jsonify) send st)) = REQUEST_COUNT st + 1.
Proof.
  cbv zeta. split; [reflexivity|]. split; [reflexivity|].
  unfold serve. rewrite get_info_with_unfold. cbv zeta.
  by destruct (jsonify _ _).
Qed.

(** C9, against the claim as stated: [HOSTNAME] is not fixed at
    start-up.  After it changes, the next call logs the new value. *)
Lemma hostname_change_is_logged :
  let st := startup {[ "HOSTNAME" := "pod-a" ]} 0 in
  last_logged (fst (get_info st)) = Some "Request served by pod: pod-a" /\
  last_logged (fst (get_info (setenv "HOSTNAME" "pod-b" st))) =
    Some "Request served by pod: pod-b" /\
  last_logged (fst (get_info (setenv "HOSTNAME" "pod-b" st))) <>
    last_logged (fst (get_info st)).
Proof. vm_compute. repeat split; discriminate. Qed.

(** C9, amended: the two configuration strings are fixed at start-up,
    so the answer of [get_info] is the same after any run, changes of the
    environment included.  [HOSTNAME] is read at each call: the record
    logged names the value it has then, [unknown-pod] when it has none,
    and a change of any other variable leaves that record as it was. *)
Theorem environment_after_startup (events : list Event) (key value : string) (st : State) :
  snd (get_info (run events st)) = snd (get_info st) /\
  last_logged (fst (get_info st)) =
    Some ("Request served by pod: " ++ os_getenv (environ st) "HOSTNAME" "unknown-pod") /\
  (if decide (key = "HOSTNAME")
   then last_logged (fst (get_info (setenv key value st))) =
        Some ("Request served by pod: " ++ value)
   else last_logged (fst (get_info (setenv key value st))) =
        last_logged (fst (get_info st))).
Proof.
  split; [apply get_info_run|].
  split; [apply get_info_logged|].
  rewrite !get_info_logged. cbn [setenv environ]. unfold os_getenv.
  case_decide as Hkey.
  - subst key. by rewrite lookup_insert_eq.
  - by rewrite lookup_insert_ne.
Qed.

End Configuration.

(** ** The exporter *)

Section Scrapes.

Implicit Types (st : State) (others : string).

(** C5: start with [APP_VERSION=2.3.1] and [APP_TITLE=MyApp], call
    [get_info] three times, export: the payload has a line that gives
    [requests_total] the value 3 (the line [requests_total 3.0]),
    whatever the other collectors wrote; when they leave the name alone
    it is the only sample of that name. *)
Theorem three_calls_exported (env : gmap string string) (now : Z) (others : string) :
  env !! "APP_VERSION" = Some "2.3.1" ->
  env !! "APP_TITLE" = Some "MyApp" ->
  let st := startup env now in
  let payload := text_of (snd (metrics others (get_info_times 3 st))) in
  APP_VERSION st = "2.3.1" /\
  APP_TITLE st = "MyApp" /\
  (exists line,
     In line (split_lines payload) /\
     line = "requests_total 3.0" /\
     line_gives "requests_total" 3 line = true) /\
  (leaves_alone "requests_total" others = true -> observed_count payload = Some 3).
Proof.
  intros Hv Ht st payload. subst st payload.
  cbn [metrics snd text_of body startup APP_VERSION APP_TITLE].
  unfold os_getenv. rewrite Hv, Ht.
  split; [done|]. split; [done|]. split.
  - exists "requests_total 3.0". split; [|split; reflexivity].
    exact (payload_has_line others (get_info_times 3 (startup env now))).
  - intros Hothers. by rewrite observed_payload.
Qed.

Lemma three_calls_exported_witness :
  let payload :=
    text_of (snd (metrics "up 1.0
" (get_info_times 3
         (startup (<["APP_TITLE" := "MyApp"]> (<["APP_VERSION" := "2.3.1"]> ∅)) 0)))) in
  In "requests_total 3.0" (split_lines payload) /\ observed_count payload = Some 3.
Proof.
  intros payload.
  set (env := <["APP_TITLE" := "MyApp"]> (<["APP_VERSION" := "2.3.1"]> ∅) : gmap string string).
  assert (Hv : env !! "APP_VERSION" = Some "2.3.1") by (vm_compute; reflexivity).
  assert (Ht : env !! "APP_TITLE" = Some "MyApp") by (vm_compute; reflexivity).
  destruct (three_calls_exported env 0 "up 1.0
" Hv Ht) as (_ & _ & (line & Hin & -> & _) & Hobs).
  split; [exact Hin|]. apply Hobs. reflexivity.
Defined.

(** C6: in every state the payload declares [requests_total] once, as a
    [counter], describes it once, with the fixed help text, and carries
    exactly one sample of that name. *)
Theorem export_declares_counter (st : State) (others : string) :
  leaves_alone "requests_total" others = true ->
  let payload := text_of (snd (metrics others st)) in
  declared "requests_total" payload = ["counter"] /\
  described "requests_total" payload = ["Total number of requests to /get_info"] /\
  length (reported "requests_total" payload) = 1%nat.
Proof.
  intros Hothers payload. subst payload. cbn [metrics snd text_of body].
  rewrite payload_declared, payload_described, payload_reported by done.
  done.
Qed.

Lemma export_declares_counter_witness :
  declared "requests_total"
    (text_of (snd (metrics "# TYPE process_open_fds gauge
process_open_fds 7.0
" (mkState "1.0" "t" 12345678 0 ∅ [])))) = ["counter"].
Proof.
  apply (export_declares_counter (mkState "1.0" "t" 12345678 0 ∅ [])
           "# TYPE process_open_fds gauge
process_open_fds 7.0
").
  vm_compute; reflexivity.
Defined.

(** C10: on a fresh process, before any call of [get_info], the export
    answers with status 200 and its payload has a line that gives
    [requests_total] the value zero (the line [requests_total 0.0]),
    whatever the other collectors wrote; when they leave the name alone
    it is the only sample of that name. *)
Theorem fresh_export_reports_zero (env : gmap string string) (now : Z) (others : string) :
  exists payload,
    snd (metrics others (startup env now)) =
      Returned {| status := 200; content_type := CONTENT_TYPE_LATEST;
                  body := TextBody payload |} /\
    (exists line,
       In line (split_lines payload) /\
       line = "requests_total 0.0" /\
       line_gives "requests_total" 0 line = true) /\
    (leaves_alone "requests_total" others = true ->
     reported "requests_total" payload = ["0.0"] /\ observed_count payload = Some 0).
Proof.
  eexists. split; [reflexivity|]. split.
  - exists "requests_total 0.0". split; [|split; reflexivity].
    exact (payload_has_line others (startup env now)).
  - intros Hothers. split.
    + by rewrite payload_reported.
    + by rewrite observed_payload.
Qed.

Lemma fresh_export_reports_zero_witness :
  exists payload,
    snd (metrics "" (startup ∅ 1730000000)) =
      Returned {| status := 200; content_type := CONTENT_TYPE_LATEST;
                  body := TextBody payload |} /\
    In "requests_total 0.0" (split_lines payload) /\
    observed_count payload = Some 0.
Proof.
  destruct (fresh_export_reports_zero ∅ 1730000000 "")
    as (payload & Hresp & (line & Hin & -> & _) & Hrest).
  exists payload. split; [exact Hresp|]. split; [exact Hin|].
  apply Hrest. reflexivity.
Defined.

End Scrapes.

(** ** Runs of requests and environment changes *)

Section Runs.

Implicit Types (st : State) (events : list Event).

Lemma run_cons e events st : run (e :: events) st = run events (step e st).
Proof. reflexivity. Qed.

Lemma step_logged_get_info st :
  logged (step (Call GetInfo) st) = (logged st ++ [pod_record (environ st)])%list.
Proof. reflexivity. Qed.

(** X1: along any run, whatever exports and changes of the environment
    come between them, the counter grows by the number of [get_info]
    calls of the run, and by nothing else. *)
Theorem counter_counts_get_info_calls (events : list Event) (st : State) :
  REQUEST_COUNT (run events st) = REQUEST_COUNT st + Z.of_nat (calls events).
Proof.
  revert st. induction events as [|e events IH]; intros st; [simpl; lia|].
  rewrite run_cons, IH.
  destruct e as [[|others]|key value]; cbn [calls].
  - change (REQUEST_COUNT (step (Call GetInfo) st)) with (REQUEST_COUNT st + 1). lia.
  - reflexivity.
  - reflexivity.
Qed.

(** X2: in every state a process can reach, the log holds as many
    records as the counter says: [get_info] adds one to each, and nothing
    else writes either. *)
Theorem log_matches_counter (st : State) :
  reachable st -> Z.of_nat (length (logged st)) = REQUEST_COUNT st.
Proof.
  induction 1 as [env now|e st _ IH]; [reflexivity|].
  destruct e as [[|others]|key value].
  - rewrite step_logged_get_info, length_app.
    change (REQUEST_COUNT (step (Call GetInfo) st)) with (REQUEST_COUNT st + 1).
    simpl length. lia.
  - exact IH.
  - exact IH.
Qed.

Lemma log_matches_counter_witness :
  let st := run [Call GetInfo; Call (Export ""); Setenv "HOSTNAME" "pod-b"; Call GetInfo]
                (startup ∅ 0) in
  Z.of_nat (length (logged st)) = REQUEST_COUNT st.
Proof.
  intros st. apply (log_matches_counter st).
  subst st. cbn [run fold_left].
  repeat apply reachable_step. apply reachable_startup.
Defined.



(** X4: the two views never write the environment.  So in a run without
    a change of the environment it stays as it was, and the run adds to
    the log one and the same record per [get_info] call, the one naming
    the [HOSTNAME] of the start of the run. *)
Theorem stable_environment_log (events : list Event) (st : State) :
  forallb (fun e => negb (is_setenv e)) events = true ->
  environ (run events st) = environ st /\
  logged (run events st) =
    (logged st ++ replicate (calls events) (pod_record (environ st)))%list.
Proof.
  revert st. induction events as [|e events IH]; intros st Hquiet.
  - split; [reflexivity|]. simpl. by rewrite app_nil_r.
  - simpl in Hquiet. apply andb_true_iff in Hquiet as [He Hrest].
    rewrite run_cons. destruct (IH (step e st) Hrest) as [Henv Hlog].
    rewrite Henv, Hlog.
    destruct e as [[|others]|key value]; [| |discriminate He].
    + split; [reflexivity|].
      rewrite step_logged_get_info. cbn [calls replicate].
      change (environ (step (Call GetInfo) st)) with (environ st).
      by rewrite <- app_assoc.
    + split; reflexivity.
Qed.

Lemma stable_environment_log_witness :
  logged (run [Call GetInfo; Call (Export ""); Call GetInfo]
              (startup {[ "HOSTNAME" := "pod-7" ]} 0)) =
    ["Request served by pod: pod-7"; "Request served by pod: pod-7"].
Proof.
  exact (proj2 (stable_environment_log [Call GetInfo; Call (Export ""); Call GetInfo]
                  (startup {[ "HOSTNAME" := "pod-7" ]} 0) eq_refl)).
Defined.

End Runs.

(** ** What the responses depend on *)

Section Dependence.

Implicit Types (st : State) (env : gmap string string).

(** X5: each of the two configuration variables falls back on its own:
    the answer of [get_info], at once and after any run, carries for each
    key the value the variable had at start-up when it was set, the empty
    text included, and the default of that key when it was not. *)
Theorem config_falls_back_per_variable (env : gmap string string) (now : Z)
    (events : list Event) :
  snd (get_info (run events (startup env now))) =
    Returned {| status := 200;
                content_type := "application/json";
                body := JsonBody
                  (<["APP_TITLE" := default "Devops for Cloud Assignment" (env !! "APP_TITLE")]>
                     (<["APP_VERSION" := default "1.0" (env !! "APP_VERSION")]> ∅)) |}.
Proof.
  rewrite get_info_result.
  destruct (run_config events (startup env now)) as [-> ->].
  cbn [startup APP_VERSION APP_TITLE]. unfold os_getenv.
  by destruct (env !! "APP_VERSION"), (env !! "APP_TITLE").
Qed.




End Dependence.
